(** * Product catalog server: filtering, sorting, pagination, request handling

    A shallow embedding of [server.py] (the request handler) together with
    the parts of [filter.py] and [pagination.py] it calls.  Python values
    that come out of [json.load] are modelled by the type [json]; Python
    exceptions by the error monad [result]; the working directory by a
    finite map from file names to file contents. *)

From Stdlib Require Import ZArith QArith Lia Ascii String Sorted Permutation.
From stdpp Require Import base option list gmap strings.

#[local] Set Warnings "-register-all".
#[local] Open Scope Z_scope.

(** ** Python values and exceptions *)

(** The exceptions that the modelled code can raise.  [NotFoundError],
    [ParseError] and [ValidationError] are the three kinds named by the
    error taxonomy of the loader and the pagination engine; the others are
    Python's own, raised by the expressions of [server.py]. *)
Inductive exn :=
| NotFoundError
| ParseError
| ValidationError
| FileNotFoundError
| JSONDecodeError
| AttributeError
| IndexError
| ValueError.

Inductive result (A : Type) :=
| Ok (a : A)
| Raise (e : exn).
Arguments Ok {A} a.
Arguments Raise {A} e.

#[global] Instance result_ret : MRet result := fun A a => Ok a.
#[global] Instance result_bind : MBind result := fun A B f m =>
  match m with
  | Ok a => f a
  | Raise e => Raise e
  end.
#[global] Instance result_fmap : FMap result := fun A B f m =>
  match m with
  | Ok a => Ok (f a)
  | Raise e => Raise e
  end.

(** What [json.load] returns: [JNull] is Python's [None], [JObj] a [dict]. *)
Inductive json :=
| JNull
| JBool (b : bool)
| JNum (q : Q)
| JStr (s : string)
| JArr (items : list json)
| JObj (members : gmap string json).

(** Python truthiness, as used by [x or None] and [if x:]. *)
Definition truthy (v : json) : bool :=
  match v with
  | JNull => false
  | JBool b => b
  | JNum q => negb (Qeq_bool q 0)
  | JStr s => negb (String.eqb s "")
  | JArr items => match items with [] => false | _ :: _ => true end
  | JObj members => negb (bool_decide (members = ∅))
  end.

(** [d.get(key)]: the value, or [None] when the key is missing. *)
Definition dict_get (d : gmap string json) (key : string) : json :=
  default JNull (d !! key).

(** [v == s] for a string literal [s]. *)
Definition eq_str (v : json) (s : string) : bool :=
  match v with
  | JStr s' => String.eqb s' s
  | _ => false
  end.

(** [v == b] restricted to an exact boolean match. *)
Definition eq_bool (v : json) (b : bool) : bool :=
  match v with
  | JBool b' => Bool.eqb b' b
  | _ => false
  end.

(** ** Product records *)

Record product := {
  product_id : Z;
  color : string;
  designer : string;
  on_sale : bool;
  regular_price : Q;
  discount_price : Q;
  popularity_score : Q
}.

(** [json.dumps(product)] writes the record as an object with these members. *)
Definition to_json (p : product) : json :=
  JObj (list_to_map
    [("product_id", JNum (inject_Z (product_id p)));
     ("color", JStr (color p));
     ("designer", JStr (designer p));
     ("on_sale", JBool (on_sale p));
     ("regular_price", JNum (regular_price p));
     ("discount_price", JNum (discount_price p));
     ("popularity_score", JNum (popularity_score p))]).

(** ** Files

    A text file is modelled by what its lines parse to.  [Jsonl lines] is a
    line-delimited source of product records, a line that is not valid JSON
    being [None]; [Dumped doc] is the single line written by
    [json.dump(doc, f)]. *)
Inductive text :=
| Jsonl (lines : list (option product))
| Dumped (doc : json).

(** [json.load(f)]: the file must hold exactly one JSON document. *)
Definition json_load (t : text) : result json :=
  match t with
  | Dumped doc => Ok doc
  | Jsonl [Some p] => Ok (to_json p)
  | Jsonl _ => Raise JSONDecodeError
  end.

(** ** filter.py *)

Module filter_module.

(** Modelled from the spec: [filter.py] is not among the sources; the
    effective price is the discount price when the record is on sale and
    the regular price otherwise. *)
Definition effective_price (p : product) : Q :=
  if on_sale p then discount_price p else regular_price p.

(** Modelled from the spec: [load_products] of the absent [filter.py]
    yields one record per line of the source, fails with [NotFoundError]
    when the source is absent and with [ParseError] when a line is not
    valid JSON. *)
Fixpoint parse_lines (lines : list (option product)) : result (list product) :=
  match lines with
  | [] => Ok []
  | None :: _ => Raise ParseError
  | Some p :: rest => ps ← parse_lines rest; Ok (p :: ps)
  end.

(** Modelled from the spec: [load_products] of the absent [filter.py]
    reads the source anew on every call; a source that is not a
    line-delimited file of records does not parse. *)
Definition load_products (fs : gmap string text) (source : string)
  : result (list product) :=
  match fs !! source with
  | None => Raise NotFoundError
  | Some (Jsonl lines) => parse_lines lines
  | Some (Dumped _) => Raise ParseError
  end.

(** Modelled from the spec: a criterion that is [None], JSON null or the
    empty string is "not provided" and puts no constraint. *)
Definition provided (criterion : json) : bool :=
  match criterion with
  | JNull => false
  | JStr s => negb (String.eqb s "")
  | _ => true
  end.

(** Modelled from the spec: [filter_by_color] of the absent [filter.py]
    keeps, in order, the records whose color is exactly the criterion. *)
Definition filter_by_color (products : list product) (c : json) : list product :=
  List.filter (fun p => eq_str c (color p)) products.

(** Modelled from the spec: [filter_by_price_range] of the absent
    [filter.py] keeps, in order, the records whose effective price lies in
    the inclusive range; a range with [min_price > max_price] keeps none. *)
Definition filter_by_price_range (products : list product) (min_price max_price : Q)
  : list product :=
  List.filter
    (fun p => Qle_bool min_price (effective_price p)
              && Qle_bool (effective_price p) max_price)
    products.

(** Modelled from the spec: [filter_by_sale_status] of the absent
    [filter.py] keeps, in order, the records whose sale status is exactly
    the boolean criterion. *)
Definition filter_by_sale_status (products : list product) (s : json) : list product :=
  List.filter (fun p => eq_bool s (on_sale p)) products.

(** Modelled from the spec: [filter_by_brand] of the absent [filter.py]
    keeps, in order, the records whose designer is exactly the criterion. *)
Definition filter_by_brand (products : list product) (b : json) : list product :=
  List.filter (fun p => eq_str b (designer p)) products.

(** Modelled from the spec: [apply_filters] of the absent [filter.py];
    every provided criterion is applied, a record survives iff it passes
    all of them. *)
Definition apply_filters (products : list product)
    (c : json) (price_range : option (Q * Q)) (s : json) (b : json)
  : list product :=
  let filtered := products in
  let filtered := if provided c then filter_by_color filtered c else filtered in
  let filtered :=
    match price_range with
    | Some (min_price, max_price) => filter_by_price_range filtered min_price max_price
    | None => filtered
    end in
  let filtered := if provided s then filter_by_sale_status filtered s else filtered in
  let filtered := if provided b then filter_by_brand filtered b else filtered in
  filtered.

Section Sorting.
Context {A : Type} (before : A -> A -> bool).

(** Modelled from the spec: the sorts of the absent [filter.py] are stable
    comparison sorts; [x] goes in front of the first element that may
    follow it, so records with equal keys keep their order. *)
Fixpoint insert_sorted (x : A) (l : list A) : list A :=
  match l with
  | [] => [x]
  | y :: l' => if before x y then x :: y :: l' else y :: insert_sorted x l'
  end.

(** Modelled from the spec: a new sequence, the input sorted stably. *)
Fixpoint sorted (l : list A) : list A :=
  match l with
  | [] => []
  | x :: l' => insert_sorted x (sorted l')
  end.
End Sorting.

(** The two directions of a comparison on a numeric key. *)
Definition descending {A} (key : A -> Q) (x y : A) : bool := Qle_bool (key y) (key x).
Definition ascending {A} (key : A -> Q) (x y : A) : bool := Qle_bool (key x) (key y).

(** Modelled from the spec: [sort_by_price_high_to_low] of the absent
    [filter.py] sorts by effective price, highest first. *)
Definition sort_by_price_high_to_low (products : list product) : list product :=
  sorted (descending effective_price) products.

(** Modelled from the spec: [sort_by_price_low_to_high] of the absent
    [filter.py] sorts by effective price, lowest first. *)
Definition sort_by_price_low_to_high (products : list product) : list product :=
  sorted (ascending effective_price) products.

(** Modelled from the spec: [sort_by_popularity] of the absent [filter.py]
    sorts by popularity score, highest first. *)
Definition sort_by_popularity (products : list product) : list product :=
  sorted (descending popularity_score) products.

End filter_module.

(** ** pagination.py *)

Module pagination_module.

(** Modelled from the spec: the metadata that the absent [pagination.py]
    returns with a page. *)
Record pagination_info := {
  total_items : Z;
  total_pages : Z;
  current_page : Z;
  has_next : bool;
  has_previous : bool
}.

(** [json.dumps] of the metadata. *)
Definition info_to_json (i : pagination_info) : json :=
  JObj (list_to_map
    [("total_items", JNum (inject_Z (total_items i)));
     ("total_pages", JNum (inject_Z (total_pages i)));
     ("current_page", JNum (inject_Z (current_page i)));
     ("has_next", JBool (has_next i));
     ("has_previous", JBool (has_previous i))]).

(** Ceiling of [n / d] for a positive [d]. *)
Definition ceil_div (n d : Z) : Z := (n + d - 1) / d.

(** Modelled from the spec: the page count of the absent [pagination.py]
    is the ceiling of items over page size, and at least one. *)
Definition get_total_pages (n page_size : Z) : Z :=
  Z.max 1 (ceil_div n page_size).

(** Modelled from the spec: a page or page size below one is invalid and
    fails with [ValidationError]. *)
Definition validate (page page_size : Z) : result unit :=
  if (page <? 1) || (page_size <? 1) then Raise ValidationError else Ok tt.

(** Modelled from the spec: [get_page_data] of the absent [pagination.py]
    is the contiguous slice of at most [page_size] records that starts
    after the [page - 1] pages before it; it is empty past the end. *)
Definition get_page_data {A} (records : list A) (page page_size : Z)
  : result (list A) :=
  _ ← validate page page_size;
  Ok (take (Z.to_nat page_size) (drop (Z.to_nat ((page - 1) * page_size)) records)).

(** Modelled from the spec: [create_pagination_info] of the absent
    [pagination.py] reports the totals, the current page and whether a
    next and a previous page exist. *)
Definition create_pagination_info {A} (records : list A) (page page_size : Z)
  : result pagination_info :=
  _ ← validate page page_size;
  let n := Z.of_nat (length records) in
  let pages := get_total_pages n page_size in
  Ok {| total_items := n;
        total_pages := pages;
        current_page := page;
        has_next := page <? pages;
        has_previous := 1 <? page |}.

(** Modelled from the spec: [paginate] pairs the page items with the
    metadata. *)
Definition paginate {A} (records : list A) (page page_size : Z)
  : result (list A * pagination_info) :=
  page_items ← get_page_data records page page_size;
  metadata ← create_pagination_info records page page_size;
  Ok (page_items, metadata).

(** The pages [first], [first + 1], ... ([count] of them), concatenated. *)
Fixpoint concat_pages {A} (records : list A) (page_size : Z) (first : Z) (count : nat)
  : result (list A) :=
  match count with
  | O => Ok []
  | S count' =>
      page_items ← get_page_data records first page_size;
      rest ← concat_pages records page_size (first + 1) count';
      Ok (page_items ++ rest)
  end.

End pagination_module.

(** ** server.py *)

Module server.

Record request := {
  path : string;
  body : option json   (* the request body as [json.loads] reads it;
                          [None] when it is not valid JSON *)
}.

Inductive response :=
| Respond (status : Z) (content_type : option string) (data : option text)
| Static (path : string).   (* [super().do_GET()], the static file responder *)

Section Handler.
(** Python's [float] and [int] on strings, and
    [parse_qs(urlparse(path).query)]. *)
Variable float : string -> result Q.
Variable int : string -> result Z.
Variable query_params : string -> gmap string (list string).

(** [s.split("-")], [parts[0]] and [parts[1]]. *)
Fixpoint split_dash (s : string) : list string :=
  match s with
  | EmptyString => [EmptyString]
  | String c s' =>
      if Ascii.eqb c "-"%char then EmptyString :: split_dash s'
      else match split_dash s' with
           | [] => [String c EmptyString]
           | w :: ws => String c w :: ws
           end
  end.

Definition index {A} (l : list A) (i : nat) : result A :=
  match l !! i with
  | Some x => Ok x
  | None => Raise IndexError
  end.

(** Lines 28-32 and 98-102: the price range handed to [apply_filters]. *)
Definition parse_price_range (filters : gmap string json)
  : result (option (Q * Q)) :=
  if truthy (dict_get filters "price_range") then
    match dict_get filters "price_range" with
    | JStr s =>
        let price_parts := split_dash s in
        p0 ← index price_parts 0;
        min_price ← float p0;
        p1 ← index price_parts 1;
        max_price ← float p1;
        Ok (Some (min_price, max_price))
    | _ => Raise AttributeError
    end
  else Ok None.

(** [x or None] *)
Definition or_None (v : json) : json := if truthy v then v else JNull.

(** [x if x is not None else None] *)
Definition if_not_None (v : json) : json :=
  match v with
  | JNull => JNull
  | _ => v
  end.

(** Lines 12-59: the data served by [/data.json] when filters are active. *)
Definition data_json_filtered (fs : gmap string text) (stored : text)
  : result (list product) :=
  doc ← json_load stored;
  all_products ← filter_module.load_products fs "data.json";
  match doc with
  | JObj filters =>
      let c := or_None (dict_get filters "color") in
      let b := or_None (dict_get filters "brand") in
      let s := if_not_None (dict_get filters "on_sale") in
      price_range ← parse_price_range filters;
      let filtered_products :=
        filter_module.apply_filters all_products c price_range s b in
      let sort_by := dict_get filters "sort_by" in
      let filtered_products :=
        if eq_str sort_by "price_high_to_low" then
          filter_module.sort_by_price_high_to_low filtered_products
        else if eq_str sort_by "price_low_to_high" then
          filter_module.sort_by_price_low_to_high filtered_products
        else if eq_str sort_by "popularity" then
          filter_module.sort_by_popularity filtered_products
        else filtered_products in
      Ok filtered_products
  | _ => Raise AttributeError   (* [filters.get] on a value that is no dict *)
  end.

(** Lines 10-68. *)
Definition get_data_json (fs : gmap string text) : result response :=
  data ←
    match fs !! "current_filters.json" with
    | Some stored =>
        filtered_products ← data_json_filtered fs stored;
        Ok (Jsonl (Some <$> filtered_products))
    | None =>
        match fs !! "data.json" with
        | Some content => Ok content
        | None => Raise FileNotFoundError
        end
    end;
  Ok (Respond 200 (Some "application/json") (Some data)).

(** Lines 81-129: the records that [/api/products] paginates. *)
Definition api_products_filtered (fs : gmap string text) : result (list product) :=
  match fs !! "current_filters.json" with
  | Some stored =>
      doc ← json_load stored;
      all_products ← filter_module.load_products fs "data.json";
      match doc with
      | JObj filters =>
          let c := or_None (dict_get filters "color") in
          let b := or_None (dict_get filters "brand") in
          let s := if_not_None (dict_get filters "on_sale") in
          price_range ← parse_price_range filters;
          let filtered_products :=
            filter_module.apply_filters all_products c price_range s b in
          let sort_by := dict_get filters "sort_by" in
          if eq_str sort_by "price_high_to_low" then
            Ok (filter_module.sort_by_price_high_to_low filtered_products)
          else if eq_str sort_by "price_low_to_high" then
            Ok (filter_module.sort_by_price_low_to_high filtered_products)
          else if eq_str sort_by "popularity" then
            Ok (filter_module.sort_by_popularity filtered_products)
          else Ok filtered_products
      | _ => Raise AttributeError   (* [filters.get] on a value that is no dict *)
      end
  | None => filter_module.load_products fs "data.json"
  end.

(** [int(query_params.get(key, [fallback])[0])] *)
Definition int_param (params : gmap string (list string)) (key : string) (fallback : Z)
  : result Z :=
  match params !! key with
  | None => Ok fallback
  | Some values => v ← index values 0; int v
  end.

(** Lines 69-145. *)
Definition get_api_products (fs : gmap string text) (p : string) : result response :=
  let params := query_params p in
  page_number ← int_param params "page" 1;
  items_per_page ← int_param params "items_per_page" 50;
  filtered_products ← api_products_filtered fs;
  page_data ←
    pagination_module.get_page_data filtered_products page_number items_per_page;
  pagination_info ←
    pagination_module.create_pagination_info
      filtered_products page_number items_per_page;
  let response_data : gmap string json :=
    {[ "products" := JArr (to_json <$> page_data);
       "pagination" := pagination_module.info_to_json pagination_info ]} in
  Ok (Respond 200 (Some "application/json") (Some (Dumped (JObj response_data)))).

Definition do_GET (fs : gmap string text) (r : request)
  : gmap string text * result response :=
  if String.eqb (path r) "/data.json" then (fs, get_data_json fs)
  else if String.prefix "/api/products" (path r) then (fs, get_api_products fs (path r))
  else (fs, Ok (Static (path r))).

Definition success : text := Dumped (JObj {[ "status" := JStr "success" ]}).

(** Lines 149-175. *)
Definition do_POST (fs : gmap string text) (r : request)
  : gmap string text * result response :=
  if String.eqb (path r) "/api/set-filters" then
    match body r with
    | Some filters =>
        (<[ "current_filters.json" := Dumped filters ]> fs,
         Ok (Respond 200 (Some "application/json") (Some success)))
    | None => (fs, Raise JSONDecodeError)
    end
  else if String.eqb (path r) "/api/clear-filters" then
    let fs' :=
      if bool_decide (is_Some (fs !! "current_filters.json"))
      then delete "current_filters.json" fs
      else fs in
    (fs', Ok (Respond 200 (Some "application/json") (Some success)))
  else (fs, Ok (Respond 404 None None)).

End Handler.

End server.

(** ** The stages of the query flow

    Both query endpoints run the same three stages in line; they are named
    here so that statements can refer to them. *)

(** The keyword arguments that the handler passes to [apply_filters]. *)
Record criteria := {
  c_color : json;
  c_price_range : option (Q * Q);
  c_on_sale : json;
  c_brand : json
}.

(** Lines 20-32 and 90-102 of [server.py]. *)
Definition handler_criteria (float : string -> result Q) (filters : gmap string json)
  : result criteria :=
  price_range ← server.parse_price_range float filters;
  Ok {| c_color := server.or_None (dict_get filters "color");
        c_price_range := price_range;
        c_on_sale := server.if_not_None (dict_get filters "on_sale");
        c_brand := server.or_None (dict_get filters "brand") |}.

Definition filter_stage (all_products : list product) (c : criteria) : list product :=
  filter_module.apply_filters all_products
    (c_color c) (c_price_range c) (c_on_sale c) (c_brand c).

(** Lines 44-56 and 114-126 of [server.py]. *)
Definition sort_stage (sort_by : json) (filtered_products : list product) : list product :=
  if eq_str sort_by "price_high_to_low" then
    filter_module.sort_by_price_high_to_low filtered_products
  else if eq_str sort_by "price_low_to_high" then
    filter_module.sort_by_price_low_to_high filtered_products
  else if eq_str sort_by "popularity" then
    filter_module.sort_by_popularity filtered_products
  else filtered_products.

(** The sort-mode names that the handler dispatches on. *)
Definition sort_modes : list string :=
  ["price_high_to_low"; "price_low_to_high"; "popularity"].

(** The query flow on an active filter mapping. *)
Definition query_flow (float : string -> result Q)
    (fs : gmap string text) (filters : gmap string json) : result (list product) :=
  all_products ← filter_module.load_products fs "data.json";
  c ← handler_criteria float filters;
  Ok (sort_stage (dict_get filters "sort_by") (filter_stage all_products c)).

(** The four criteria of a filter mapping. *)
Definition criterion_keys : list string := ["color"; "brand"; "on_sale"; "price_range"].

(** The handler treats the value [v] of criterion [key] as "not provided":
    [apply_filters] gets the arguments it gets when [key] is absent. *)
Definition not_provided (float : string -> result Q) (key : string) (v : json) : Prop :=
  ∀ filters : gmap string json,
    handler_criteria float (<[key := v]> filters)
    = handler_criteria float (delete key filters).

(** ** Orderings of a sequence of numbers *)

Definition non_increasing (l : list Q) : Prop :=
  ∀ (i j : nat) (x y : Q),
    (i ≤ j)%nat → l !! i = Some x → l !! j = Some y → (y <= x)%Q.

Definition non_decreasing (l : list Q) : Prop :=
  ∀ (i j : nat) (x y : Q),
    (i ≤ j)%nat → l !! i = Some x → l !! j = Some y → (x <= y)%Q.

(** ** Concrete data: the records of the test suite, and plain decimal
    readings of [float] and [int] *)

Definition sample_products : list product :=
  [ {| product_id := 1; color := "red"; designer := "gucci"; on_sale := true;
       regular_price := 500; discount_price := 250; popularity_score := 25 # 10 |};
    {| product_id := 2; color := "black"; designer := "gucci"; on_sale := true;
       regular_price := 800; discount_price := 400; popularity_score := 38 # 10 |};
    {| product_id := 3; color := "black"; designer := "dolce-gabbana"; on_sale := false;
       regular_price := 150; discount_price := 150; popularity_score := 12 # 10 |};
    {| product_id := 4; color := "blue"; designer := "gucci"; on_sale := false;
       regular_price := 50; discount_price := 50; popularity_score := 45 # 10 |} ].

Definition digit_value (c : ascii) : option Z :=
  let n := Z.of_nat (nat_of_ascii c) in
  if (48 <=? n) && (n <=? 57) then Some (n - 48) else None.

Fixpoint digits_value (acc : Z) (s : string) : option Z :=
  match s with
  | EmptyString => Some acc
  | String c s' => d ← digit_value c; digits_value (10 * acc + d) s'
  end.

(** [int] on a non-empty string of decimal digits. *)
Definition decimal_int (s : string) : result Z :=
  match s with
  | EmptyString => Raise ValueError
  | _ => from_option Ok (Raise ValueError) (digits_value 0 s)
  end.

(** [float] on a non-empty string of decimal digits. *)
Definition decimal_float (s : string) : result Q :=
  inject_Z <$> decimal_int s.

Definition no_query (p : string) : gmap string (list string) := ∅.

(** A working directory holding the sample catalog and a filter mapping. *)
Definition sample_fs (filters : gmap string json) : gmap string text :=
  {[ "data.json" := Jsonl (Some <$> sample_products);
     "current_filters.json" := Dumped (JObj filters) ]}.

(** Two records of the sample, by name. *)
Definition red_gucci : product :=
  {| product_id := 1; color := "red"; designer := "gucci"; on_sale := true;
     regular_price := 500; discount_price := 250; popularity_score := 25 # 10 |}.

Definition black_gucci : product :=
  {| product_id := 2; color := "black"; designer := "gucci"; on_sale := true;
     regular_price := 800; discount_price := 400; popularity_score := 38 # 10 |}.

(** ** Requests and the server loop *)

(** The two mutation requests. *)
Definition set_filters (body : option json) : server.request :=
  {| server.path := "/api/set-filters"; server.body := body |}.

Definition clear_filters : server.request :=
  {| server.path := "/api/clear-filters"; server.body := None |}.

(** The handler class answers GET and POST requests. *)
Inductive method := GET | POST.

Definition handle_request (float : string -> result Q) (int : string -> result Z)
    (query_params : string -> gmap string (list string))
    (fs : gmap string text) (m : method) (r : server.request)
  : gmap string text * result server.response :=
  match m with
  | GET => server.do_GET float int query_params fs r
  | POST => server.do_POST fs r
  end.

(** Line 181, [httpd.serve_forever()]: requests are handled one after the
    other; the working directory after a finite run of them. *)
Definition serve (float : string -> result Q) (int : string -> result Z)
    (query_params : string -> gmap string (list string))
    (fs : gmap string text) (requests : list (method * server.request))
  : gmap string text :=
  foldl (fun fs' '(m, r) => (handle_request float int query_params fs' m r).1) fs requests.

(** The filter store is absent or holds one JSON document. *)
Definition store_well_formed (fs : gmap string text) : Prop :=
  match fs !! "current_filters.json" with
  | None => True
  | Some stored => ∃ doc, stored = Dumped doc
  end.

(** ** Strings with dashes *)

Fixpoint has_dash (s : string) : bool :=
  match s with
  | EmptyString => false
  | String c s' => Ascii.eqb c "-"%char || has_dash s'
  end.

(** ["-".join(parts)] *)
Fixpoint join_dash (parts : list string) : string :=
  match parts with
  | [] => EmptyString
  | [w] => w
  | w :: ws => String.append w (String "-"%char (join_dash ws))
  end.

(** * Properties *)

(** ** The scenarios of the test suite

    The modelled [filter.py] and [pagination.py] give the results that
    [test_filter.py] and the scenarios of the specification expect. *)

Example test_filter_by_color_black :
  product_id <$> filter_module.filter_by_color sample_products (JStr "black") = [2; 3].
Proof. vm_compute. reflexivity. Qed.

Example test_filter_by_color_empty_result :
  filter_module.filter_by_color sample_products (JStr "purple") = [].
Proof. vm_compute. reflexivity. Qed.

Example test_filter_by_price_range_mid_range :
  product_id <$> filter_module.filter_by_price_range sample_products 100 500 = [1; 2; 3].
Proof. vm_compute. reflexivity. Qed.

Example test_filter_by_price_range_on_sale :
  product_id <$> filter_module.filter_by_price_range sample_products 240 260 = [1].
Proof. vm_compute. reflexivity. Qed.

Example test_filter_by_sale_status_not_on_sale :
  product_id <$> filter_module.filter_by_sale_status sample_products (JBool false) = [3; 4].
Proof. vm_compute. reflexivity. Qed.

Example test_filter_by_brand_dolce_gabbana :
  product_id <$> filter_module.filter_by_brand sample_products (JStr "dolce-gabbana") = [3].
Proof. vm_compute. reflexivity. Qed.

Example test_apply_filters_price_range_only :
  product_id <$> filter_module.apply_filters sample_products JNull (Some (0, 100)%Q) JNull JNull
  = [4].
Proof. vm_compute. reflexivity. Qed.

Example test_apply_filters_brand_and_sale :
  product_id <$>
    filter_module.apply_filters sample_products JNull None (JBool true) (JStr "gucci")
  = [1; 2].
Proof. vm_compute. reflexivity. Qed.

Example test_sort_by_price_high_to_low_basic :
  product_id <$> filter_module.sort_by_price_high_to_low sample_products = [2; 1; 3; 4].
Proof. vm_compute. reflexivity. Qed.

Example test_sort_by_price_low_to_high_basic :
  product_id <$> filter_module.sort_by_price_low_to_high sample_products = [4; 3; 1; 2].
Proof. vm_compute. reflexivity. Qed.

Example test_sort_by_popularity_basic :
  product_id <$> filter_module.sort_by_popularity sample_products = [4; 2; 1; 3].
Proof. vm_compute. reflexivity. Qed.

Example scenario_paginate_first_page :
  pagination_module.paginate sample_products 1 2
  = Ok (take 2 sample_products,
        {| pagination_module.total_items := 4;
           pagination_module.total_pages := 2;
           pagination_module.current_page := 1;
           pagination_module.has_next := true;
           pagination_module.has_previous := false |}).
Proof. vm_compute. reflexivity. Qed.

Example split_dash_range : server.split_dash "100-500" = ["100"; "500"].
Proof. vm_compute. reflexivity. Qed.

Example split_dash_no_dash : server.split_dash "100" = ["100"].
Proof. vm_compute. reflexivity. Qed.

(** ** The error monad *)

Lemma bind_Ok {A B} (f : A -> result B) (a : A) : (Ok a ≫= f) = f a.
Proof. reflexivity. Qed.

Lemma bind_Ok_inv {A B} (f : A -> result B) (m : result A) (b : B) :
  (m ≫= f) = Ok b → ∃ a, m = Ok a ∧ f a = Ok b.
Proof. destruct m as [a|e]; [eauto | discriminate]. Qed.

(** ** Sorting by insertion *)

Section SortingFacts.
Context {A : Type} (before : A -> A -> bool).
Hypothesis before_total : ∀ x y, before x y = true ∨ before y x = true.
Hypothesis before_trans :
  ∀ x y z, before x y = true → before y z = true → before x z = true.

Abbreviation R := (fun x y : A => before x y = true).

Lemma insert_sorted_Permutation (x : A) (l : list A) :
  filter_module.insert_sorted before x l ≡ₚ x :: l.
Proof.
  induction l as [|y l IH]; simpl; [done|].
  destruct (before x y); [done|].
  rewrite IH. apply Permutation_swap.
Qed.

Lemma sorted_Permutation (l : list A) : filter_module.sorted before l ≡ₚ l.
Proof.
  induction l as [|x l IH]; simpl; [done|].
  by rewrite insert_sorted_Permutation, IH.
Qed.

Lemma insert_sorted_StronglySorted (x : A) (l : list A) :
  StronglySorted R l → StronglySorted R (filter_module.insert_sorted before x l).
Proof using before_total before_trans.
  induction 1 as [|y l Hl IH Hy]; simpl.
  - repeat constructor.
  - destruct (before x y) eqn:Hxy.
    + constructor; [by constructor|].
      constructor; [exact Hxy|].
      eapply Forall_impl; [exact Hy|].
      intros z Hz. by apply before_trans with y.
    + constructor; [exact IH|].
      rewrite insert_sorted_Permutation. constructor; [|exact Hy].
      destruct (before_total x y) as [H|H]; [congruence | exact H].
Qed.

Lemma sorted_StronglySorted (l : list A) :
  StronglySorted R (filter_module.sorted before l).
Proof using before_total before_trans.
  induction l as [|x l IH]; simpl; [constructor|].
  by apply insert_sorted_StronglySorted.
Qed.

Lemma sorted_lookup_lt (l : list A) (i j : nat) (x y : A) :
  (i < j)%nat →
  filter_module.sorted before l !! i = Some x →
  filter_module.sorted before l !! j = Some y →
  before x y = true.
Proof using before_total before_trans.
  generalize (sorted_StronglySorted l).
  generalize (filter_module.sorted before l). clear l.
  intros l Hl. revert i j.
  induction Hl as [|z l Hl IH Hz]; intros i j Hij Hi Hj; [done|].
  destruct i as [|i], j as [|j]; simplify_eq/=; try lia.
  - rewrite Forall_forall in Hz. apply Hz, list_elem_of_lookup. eauto.
  - apply (IH i j); [lia|done..].
Qed.
End SortingFacts.

(** Sorting on a numeric key, in either direction. *)
Section KeySort.
Context {A : Type} (key : A -> Q).

Abbreviation descending := (filter_module.descending key).
Abbreviation ascending := (filter_module.ascending key).

Lemma Qle_bool_total (a b : Q) : Qle_bool a b = true ∨ Qle_bool b a = true.
Proof.
  rewrite !Qle_bool_iff.
  destruct (Qlt_le_dec a b) as [H|H]; [left; by apply Qlt_le_weak | by right].
Qed.

Lemma Qle_bool_trans (a b c : Q) :
  Qle_bool a b = true → Qle_bool b c = true → Qle_bool a c = true.
Proof. rewrite !Qle_bool_iff. apply Qle_trans. Qed.

Lemma sorted_descending_non_increasing (l : list A) :
  non_increasing (key <$> filter_module.sorted descending l).
Proof.
  intros i j x y Hij Hi Hj.
  rewrite list_lookup_fmap in Hi, Hj.
  destruct (filter_module.sorted descending l !! i) as [a|] eqn:Ha; [|done].
  destruct (filter_module.sorted descending l !! j) as [b|] eqn:Hb; [|done].
  simplify_eq/=.
  destruct (decide (i = j)) as [->|Hne].
  - rewrite Ha in Hb. injection Hb as ->. apply Qle_refl.
  - apply Qle_bool_iff.
    apply (sorted_lookup_lt descending) with (l := l) (i := i) (j := j);
      [| |lia|done..]; unfold filter_module.descending.
    + intros u v. apply Qle_bool_total.
    + intros u v w Huv Hvw. by apply Qle_bool_trans with (key v).
Qed.

Lemma sorted_ascending_non_decreasing (l : list A) :
  non_decreasing (key <$> filter_module.sorted ascending l).
Proof.
  intros i j x y Hij Hi Hj.
  rewrite list_lookup_fmap in Hi, Hj.
  destruct (filter_module.sorted ascending l !! i) as [a|] eqn:Ha; [|done].
  destruct (filter_module.sorted ascending l !! j) as [b|] eqn:Hb; [|done].
  simplify_eq/=.
  destruct (decide (i = j)) as [->|Hne].
  - rewrite Ha in Hb. injection Hb as ->. apply Qle_refl.
  - apply Qle_bool_iff.
    apply (sorted_lookup_lt ascending) with (l := l) (i := i) (j := j);
      [| |lia|done..]; unfold filter_module.ascending.
    + intros u v. apply Qle_bool_total.
    + intros u v w Huv Hvw. by apply Qle_bool_trans with (key v).
Qed.
End KeySort.

(** C3: for every list of product records, the output of
    [sort_by_price_high_to_low] is non-increasing in effective price, the
    output of [sort_by_price_low_to_high] is non-decreasing in effective
    price, and the output of [sort_by_popularity] is non-increasing in
    popularity score. *)
Theorem sort_outputs_ordered (products : list product) :
  non_increasing
    (filter_module.effective_price <$> filter_module.sort_by_price_high_to_low products)
  ∧ non_decreasing
    (filter_module.effective_price <$> filter_module.sort_by_price_low_to_high products)
  ∧ non_increasing
    (popularity_score <$> filter_module.sort_by_popularity products).
Proof.
  split; [|split].
  - apply (sorted_descending_non_increasing filter_module.effective_price).
  - apply (sorted_ascending_non_decreasing filter_module.effective_price).
  - apply (sorted_descending_non_increasing popularity_score).
Qed.

(** ** Filtering *)

(** C6: for every list of product records, [apply_filters] with no
    criterion supplied returns the list unchanged. *)
Theorem apply_filters_no_criteria (products : list product) :
  filter_module.apply_filters products JNull None JNull JNull = products.
Proof. reflexivity. Qed.

Lemma List_filter_sublist {A} (f : A -> bool) (l : list A) :
  sublist (List.filter f l) l.
Proof.
  induction l as [|x l IH]; simpl; [constructor|].
  destruct (f x); by constructor.
Qed.

(** Every filter keeps a sub-sequence of its input, in order. *)
Lemma apply_filters_sublist (products : list product) c price_range s b :
  sublist (filter_module.apply_filters products c price_range s b) products.
Proof.
  unfold filter_module.apply_filters, filter_module.filter_by_color,
    filter_module.filter_by_price_range, filter_module.filter_by_sale_status,
    filter_module.filter_by_brand.
  destruct (filter_module.provided c), price_range as [[lo hi]|],
    (filter_module.provided s), (filter_module.provided b);
    repeat (etrans; [apply List_filter_sublist|]); done.
Qed.

(** ** Pagination *)

Section PaginationFacts.
Import pagination_module.

Lemma ceil_div_bounds (n d : Z) :
  0 < d → (ceil_div n d - 1) * d < n ≤ ceil_div n d * d.
Proof.
  intros Hd. unfold ceil_div.
  pose proof (Z.div_mod (n + d - 1) d ltac:(lia)) as Hdm.
  pose proof (Z.mod_pos_bound (n + d - 1) d Hd) as Hm.
  nia.
Qed.

Lemma ceil_div_0 (d : Z) : 0 < d → ceil_div 0 d = 0.
Proof. intros Hd. unfold ceil_div. apply Z.div_small. lia. Qed.

Lemma ceil_div_pos (n d : Z) : 0 < d → 0 < n → 1 ≤ ceil_div n d.
Proof. intros Hd Hn. pose proof (ceil_div_bounds n d Hd). nia. Qed.

(** The page count is the ceiling of items over page size, except that an
    empty sequence still has one page. *)
Lemma get_total_pages_spec (n d : Z) :
  0 < d → 0 ≤ n →
  get_total_pages n d = (if decide (n = 0) then 1 else ceil_div n d).
Proof.
  intros Hd Hn. unfold get_total_pages. case_decide as H0.
  - subst. rewrite ceil_div_0 by done. lia.
  - pose proof (ceil_div_pos n d Hd ltac:(lia)). lia.
Qed.

Lemma get_total_pages_covers (n d : Z) :
  0 < d → n ≤ get_total_pages n d * d.
Proof.
  intros Hd. unfold get_total_pages.
  pose proof (ceil_div_bounds n d Hd). nia.
Qed.

Lemma validate_Ok (page page_size : Z) :
  1 ≤ page → 1 ≤ page_size → validate page page_size = Ok tt.
Proof.
  intros Hp Hs. unfold validate.
  destruct (Z.ltb_spec page 1), (Z.ltb_spec page_size 1); simpl; (lia || done).
Qed.

Lemma get_page_data_Ok {A} (records : list A) (page page_size : Z) :
  1 ≤ page → 1 ≤ page_size →
  get_page_data records page page_size
  = Ok (take (Z.to_nat page_size) (drop (Z.to_nat ((page - 1) * page_size)) records)).
Proof. intros Hp Hs. unfold get_page_data. by rewrite validate_Ok. Qed.

(** [count] consecutive pages make up one slice of [count] page sizes. *)
Lemma concat_pages_slice {A} (records : list A) (page_size first : Z) (count : nat) :
  1 ≤ first → 1 ≤ page_size →
  concat_pages records page_size first count
  = Ok (take (count * Z.to_nat page_size)
             (drop (Z.to_nat ((first - 1) * page_size)) records)).
Proof.
  intros Hf Hs. revert first Hf.
  induction count as [|count IH]; intros first Hf; simpl.
  - by rewrite take_0.
  - rewrite get_page_data_Ok, IH by lia. simpl. f_equal.
    replace (Z.to_nat ((first + 1 - 1) * page_size))
      with (Z.to_nat ((first - 1) * page_size) + Z.to_nat page_size)%nat by nia.
    rewrite <- drop_drop. apply take_take_drop.
Qed.
End PaginationFacts.

(** C4, as stated, fails below page one: on the sample, page 0 with a page
    size of 2 is an invalid input; [paginate] raises [ValidationError] and
    reports no totals. *)
Lemma paginate_page_zero_fails :
  pagination_module.paginate sample_products 0 2 = Raise ValidationError.
Proof. reflexivity. Qed.

(** C4, amended: for every list of records, every page size of at least
    one and every requested page number of at least one, [paginate]
    returns; the total page count it reports is the ceiling of items over
    page size, and one when there are no items; and a page past the last
    one comes back empty, with the same totals. *)
Theorem paginate_totals {A} (records : list A) (page page_size : Z) :
  1 ≤ page_size → 1 ≤ page →
  ∃ page_items metadata,
    pagination_module.paginate records page page_size = Ok (page_items, metadata)
    ∧ pagination_module.total_items metadata = Z.of_nat (length records)
    ∧ pagination_module.total_pages metadata
      = (if decide (length records = 0%nat) then 1
         else pagination_module.ceil_div (Z.of_nat (length records)) page_size)
    ∧ (pagination_module.ceil_div (Z.of_nat (length records)) page_size - 1) * page_size
      < Z.of_nat (length records)
      ≤ pagination_module.ceil_div (Z.of_nat (length records)) page_size * page_size
    ∧ (pagination_module.total_pages metadata < page → page_items = []).
Proof.
  intros Hs Hp. unfold pagination_module.paginate.
  rewrite get_page_data_Ok by done.
  unfold pagination_module.create_pagination_info.
  rewrite validate_Ok by done. simpl.
  eexists _, _. split; [reflexivity|]. simpl.
  split; [reflexivity|]. split; [|split].
  - rewrite get_total_pages_spec by lia.
    repeat case_decide; (lia || done).
  - apply ceil_div_bounds. lia.
  - intros Hlt. rewrite drop_ge; [apply take_nil|].
    pose proof (get_total_pages_covers (Z.of_nat (length records)) page_size ltac:(lia)).
    nia.
Qed.

(** C5: for every list of records and every page size of at least one,
    the page items of pages 1 up to the reported total page count,
    concatenated, are the whole sequence: each record once, in order. *)
Theorem pages_reconstruct {A} (records : list A) (page_size : Z) :
  1 ≤ page_size →
  ∃ metadata,
    pagination_module.create_pagination_info records 1 page_size = Ok metadata
    ∧ pagination_module.concat_pages records page_size 1
        (Z.to_nat (pagination_module.total_pages metadata))
      = Ok records.
Proof.
  intros Hs. unfold pagination_module.create_pagination_info.
  rewrite validate_Ok by lia. simpl.
  eexists. split; [reflexivity|]. simpl.
  rewrite concat_pages_slice by lia. simpl. f_equal.
  apply take_ge.
  pose proof (get_total_pages_covers (Z.of_nat (length records)) page_size ltac:(lia)).
  unfold pagination_module.get_total_pages in *. nia.
Qed.

(** ** The request handler *)

(** Both query endpoints run the stages named above. *)
Lemma data_json_filtered_flow float (fs : gmap string text) (filters : gmap string json) :
  server.data_json_filtered float fs (Dumped (JObj filters)) = query_flow float fs filters.
Proof.
  unfold server.data_json_filtered, query_flow, handler_criteria; simpl.
  destruct (filter_module.load_products fs "data.json") as [all_products|e]; simpl; [|done].
  destruct (server.parse_price_range float filters) as [price_range|e]; simpl; done.
Qed.

Lemma api_products_filtered_flow float (fs : gmap string text) (filters : gmap string json) :
  fs !! "current_filters.json" = Some (Dumped (JObj filters)) →
  server.api_products_filtered float fs = query_flow float fs filters.
Proof.
  intros Hstore.
  unfold server.api_products_filtered, query_flow, handler_criteria, sort_stage.
  rewrite Hstore; simpl.
  destruct (filter_module.load_products fs "data.json") as [all_products|e]; simpl; [|done].
  destruct (server.parse_price_range float filters) as [price_range|e]; simpl; [|done].
  unfold filter_stage; simpl.
  by repeat destruct (eq_str _ _).
Qed.

Lemma get_data_json_flow float (fs : gmap string text) (filters : gmap string json) :
  fs !! "current_filters.json" = Some (Dumped (JObj filters)) →
  server.get_data_json float fs
  = (served ← query_flow float fs filters;
     Ok (server.Respond 200 (Some "application/json") (Some (Jsonl (Some <$> served))))).
Proof.
  intros Hstore. unfold server.get_data_json.
  rewrite Hstore, data_json_filtered_flow.
  by destruct (query_flow float fs filters).
Qed.

Lemma query_flow_Ok float (fs : gmap string text) (filters : gmap string json)
    (all_products : list product) (c : criteria) :
  filter_module.load_products fs "data.json" = Ok all_products →
  handler_criteria float filters = Ok c →
  query_flow float fs filters
  = Ok (sort_stage (dict_get filters "sort_by") (filter_stage all_products c)).
Proof. intros Hload Hc. unfold query_flow. by rewrite Hload, Hc. Qed.

(** C10: for every catalog and every content of the persisted filter
    store, the records that the unpaginated endpoint serializes are the
    records that the paginated endpoint computes before it paginates; the
    two also fail alike. *)
Theorem endpoints_share_pipeline float (fs : gmap string text) (stored : text) :
  fs !! "current_filters.json" = Some stored →
  server.get_data_json float fs
  = (filtered_products ← server.api_products_filtered float fs;
     Ok (server.Respond 200 (Some "application/json")
           (Some (Jsonl (Some <$> filtered_products))))).
Proof.
  intros Hstore.
  unfold server.get_data_json, server.api_products_filtered,
    server.data_json_filtered.
  rewrite Hstore.
  destruct (json_load stored) as [doc|e]; simpl; [|done].
  destruct (filter_module.load_products fs "data.json") as [all_products|e]; simpl; [|done].
  destruct doc as [| | | | |filters]; simpl; try done.
  destruct (server.parse_price_range float filters) as [price_range|e]; simpl; [|done].
  by repeat destruct (eq_str _ _).
Qed.

Lemma parse_lines_Ok (lines : list (option product)) (products : list product) :
  filter_module.parse_lines lines = Ok products → lines = Some <$> products.
Proof.
  revert products. induction lines as [|[p|] lines IH]; intros products; simpl.
  - by intros [= <-].
  - destruct (filter_module.parse_lines lines) as [ps|e]; simpl; [|done].
    intros [= <-]. simpl. f_equal. by apply IH.
  - done.
Qed.

(** X6: with no filter store, the unpaginated endpoint serves the catalog
    source as it is; when the paginated endpoint loads the catalog, these
    are exactly its records. *)
Lemma endpoints_agree_without_store float (fs : gmap string text)
    (products : list product) :
  fs !! "current_filters.json" = None →
  server.api_products_filtered float fs = Ok products →
  server.get_data_json float fs
  = Ok (server.Respond 200 (Some "application/json") (Some (Jsonl (Some <$> products)))).
Proof.
  intros Hstore. unfold server.api_products_filtered, server.get_data_json.
  rewrite Hstore. unfold filter_module.load_products.
  destruct (fs !! "data.json") as [[lines|doc]|]; simpl; try done.
  intros Hparse. by rewrite (parse_lines_Ok _ _ Hparse).
Qed.

(** *** Sorting stage *)

Lemma eq_str_false (v : json) (name : string) : v ≠ JStr name → eq_str v name = false.
Proof.
  intros Hne. destruct v as [| | |s| |]; simpl; try done.
  destruct (String.eqb_spec s name) as [->|]; done.
Qed.

Lemma eq_str_true (v : json) (name : string) : eq_str v name = true → v = JStr name.
Proof.
  destruct v as [| | |s| |]; simpl; try done.
  destruct (String.eqb_spec s name) as [->|]; done.
Qed.

(** C7: for every list of records and every persisted [sort_by] value that
    is absent or is none of the sort-mode names the handler dispatches on,
    the sort stage returns the records in their input order, so the query
    flow yields the filtered records as the filter left them. *)
Theorem unrecognized_sort_mode_keeps_order float
    (fs : gmap string text) (filters : gmap string json) (records : list product) :
  (∀ name, name ∈ sort_modes → dict_get filters "sort_by" ≠ JStr name) →
  sort_stage (dict_get filters "sort_by") records = records
  ∧ server.data_json_filtered float fs (Dumped (JObj filters))
    = (all_products ← filter_module.load_products fs "data.json";
       c ← handler_criteria float filters;
       Ok (filter_stage all_products c)).
Proof.
  intros Hmode.
  assert (∀ l, sort_stage (dict_get filters "sort_by") l = l) as Hsort.
  { intros l. unfold sort_stage.
    rewrite !eq_str_false; [done|apply Hmode; unfold sort_modes; set_solver..]. }
  split; [apply Hsort|].
  rewrite data_json_filtered_flow. unfold query_flow.
  destruct (filter_module.load_products fs "data.json") as [all_products|e]; simpl; [|done].
  destruct (handler_criteria float filters) as [c|e]; simpl; [|done].
  by rewrite Hsort.
Qed.

Lemma unrecognized_sort_mode_keeps_order_witness :
  sort_stage (dict_get {[ "sort_by" := JStr "newest" ]} "sort_by") sample_products
  = sample_products
  ∧ sort_stage (dict_get ∅ "sort_by") sample_products = sample_products.
Proof.
  split.
  - refine (proj1 (unrecognized_sort_mode_keeps_order decimal_float ∅
                     {[ "sort_by" := JStr "newest" ]} sample_products _)).
    intros name Hname. unfold sort_modes in Hname.
    rewrite !elem_of_cons, elem_of_nil in Hname.
    destruct Hname as [->|[->|[->|[]]]]; vm_compute; discriminate.
  - refine (proj1 (unrecognized_sort_mode_keeps_order decimal_float ∅
                     ∅ sample_products _)).
    intros name _. vm_compute. discriminate.
Defined.

Lemma endpoints_share_pipeline_witness :
  server.get_data_json decimal_float (sample_fs {[ "color" := JStr "black" ]})
  = (filtered_products ←
       server.api_products_filtered decimal_float (sample_fs {[ "color" := JStr "black" ]});
     Ok (server.Respond 200 (Some "application/json")
           (Some (Jsonl (Some <$> filtered_products))))).
Proof.
  apply (endpoints_share_pipeline decimal_float
           (sample_fs {[ "color" := JStr "black" ]})
           (Dumped (JObj {[ "color" := JStr "black" ]}))).
  vm_compute. reflexivity.
Defined.

(** C1, as stated, fails: with [sort_by] set to ["popularity_descending"]
    the unpaginated endpoint serves the sample catalog in its input order,
    in which the popularity score goes up from the first record to the
    second. *)
Lemma popularity_descending_not_dispatched :
  (server.do_GET decimal_float decimal_int no_query
     (sample_fs {[ "sort_by" := JStr "popularity_descending" ]})
     {| server.path := "/data.json"; server.body := None |}).2
  = Ok (server.Respond 200 (Some "application/json")
          (Some (Jsonl (Some <$> sample_products))))
  ∧ server.api_products_filtered decimal_float
      (sample_fs {[ "sort_by" := JStr "popularity_descending" ]})
    = Ok sample_products
  ∧ ¬ non_increasing (popularity_score <$> sample_products).
Proof.
  split; [vm_compute; reflexivity|].
  split; [vm_compute; reflexivity|].
  intros Hsorted.
  specialize (Hsorted 0%nat 1%nat (25 # 10)%Q (38 # 10)%Q).
  simpl in Hsorted. specialize (Hsorted ltac:(lia) eq_refl eq_refl).
  revert Hsorted. unfold Qle; simpl. lia.
Qed.

(** C1, amended: for every catalog that loads and every persisted filter
    mapping whose [sort_by] is ["popularity"] and whose criteria the
    handler reads without error (the stored [price_range] is absent or
    falsy, or a string whose first two dash-separated parts [float]
    accepts), both query endpoints return the filtered records reordered
    so that the popularity score is non-increasing. *)
Theorem popularity_mode_sorts float (fs : gmap string text)
    (filters : gmap string json) (all_products : list product) (c : criteria) :
  fs !! "current_filters.json" = Some (Dumped (JObj filters)) →
  dict_get filters "sort_by" = JStr "popularity" →
  filter_module.load_products fs "data.json" = Ok all_products →
  handler_criteria float filters = Ok c →
  ∃ served,
    server.get_data_json float fs
    = Ok (server.Respond 200 (Some "application/json") (Some (Jsonl (Some <$> served))))
    ∧ server.api_products_filtered float fs = Ok served
    ∧ served ≡ₚ filter_stage all_products c
    ∧ non_increasing (popularity_score <$> served).
Proof.
  intros Hstore Hmode Hload Hc.
  exists (filter_module.sort_by_popularity (filter_stage all_products c)).
  assert (server.api_products_filtered float fs
          = Ok (filter_module.sort_by_popularity (filter_stage all_products c))) as Hapi.
  { rewrite (api_products_filtered_flow _ _ _ Hstore).
    rewrite (query_flow_Ok _ _ _ _ _ Hload Hc), Hmode. reflexivity. }
  split; [|split; [exact Hapi|split]].
  - rewrite (get_data_json_flow _ _ _ Hstore).
    rewrite (query_flow_Ok _ _ _ _ _ Hload Hc), Hmode. reflexivity.
  - apply sorted_Permutation.
  - apply (sorted_descending_non_increasing popularity_score).
Qed.

Lemma popularity_mode_sorts_witness :
  ∃ served,
    server.get_data_json decimal_float (sample_fs {[ "sort_by" := JStr "popularity" ]})
    = Ok (server.Respond 200 (Some "application/json") (Some (Jsonl (Some <$> served))))
    ∧ server.api_products_filtered decimal_float
        (sample_fs {[ "sort_by" := JStr "popularity" ]})
      = Ok served
    ∧ served ≡ₚ
        filter_stage sample_products
          {| c_color := JNull; c_price_range := None;
             c_on_sale := JNull; c_brand := JNull |}
    ∧ non_increasing (popularity_score <$> served).
Proof.
  apply (popularity_mode_sorts decimal_float
           (sample_fs {[ "sort_by" := JStr "popularity" ]})
           {[ "sort_by" := JStr "popularity" ]} sample_products);
    vm_compute; reflexivity.
Defined.

(** *** Criteria *)

Lemma dict_get_insert (filters : gmap string json) (key key' : string) (v : json) :
  dict_get (<[key := v]> filters) key'
  = if decide (key = key') then v else dict_get filters key'.
Proof. unfold dict_get. rewrite lookup_insert. by case_decide. Qed.

Lemma dict_get_delete (filters : gmap string json) (key key' : string) :
  dict_get (delete key filters) key'
  = if decide (key = key') then JNull else dict_get filters key'.
Proof. unfold dict_get. rewrite lookup_delete. by case_decide. Qed.

Lemma parse_price_range_ext float (filters filters' : gmap string json) :
  dict_get filters "price_range" = dict_get filters' "price_range" →
  server.parse_price_range float filters = server.parse_price_range float filters'.
Proof. intros Heq. unfold server.parse_price_range. by rewrite Heq. Qed.

Lemma bind_fmap_result {A B C} (f : A -> B) (g : B -> C) (m m' : result A) :
  f <$> m = f <$> m' →
  (m ≫= fun a => Ok (g (f a))) = (m' ≫= fun a => Ok (g (f a))).
Proof.
  destruct m as [a|e], m' as [a'|e']; intros Heq;
    cbv [fmap result_fmap] in Heq; cbv [mbind result_bind];
    simplify_eq; congruence.
Qed.



(** *** Mutation endpoints and the files they touch *)

(** C8: in every state of the working directory, the filter store being
    there or not, the clear-filters endpoint answers 200 with the body
    [{"status": "success"}] and leaves the store absent; on an absent store
    it changes nothing, and running it again gives the same outcome. *)
Theorem clear_filters_never_fails (fs : gmap string text) (r : server.request) :
  server.path r = "/api/clear-filters" →
  (server.do_POST fs r).2
  = Ok (server.Respond 200 (Some "application/json")
          (Some (Dumped (JObj {[ "status" := JStr "success" ]}))))
  ∧ (server.do_POST fs r).1 !! "current_filters.json" = None
  ∧ (fs !! "current_filters.json" = None → (server.do_POST fs r).1 = fs)
  ∧ server.do_POST (server.do_POST fs r).1 r = server.do_POST fs r.
Proof.
  intros Hpath. unfold server.do_POST. rewrite Hpath. simpl.
  split; [reflexivity|].
  case_bool_decide as Hstore.
  - split; [apply lookup_delete_eq|]. split.
    + intros Hnone. rewrite Hnone in Hstore. by destruct Hstore.
    + rewrite bool_decide_eq_false_2; [done|].
      rewrite lookup_delete_eq. by intros [? ?].
  - split; [by apply eq_None_not_Some|]. split; [done|].
    by rewrite bool_decide_eq_false_2.
Qed.

Lemma clear_filters_never_fails_witness :
  (server.do_POST ∅ {| server.path := "/api/clear-filters"; server.body := None |}).2
  = Ok (server.Respond 200 (Some "application/json")
          (Some (Dumped (JObj {[ "status" := JStr "success" ]}))))
  ∧ (server.do_POST ∅ {| server.path := "/api/clear-filters"; server.body := None |}).1
    = ∅.
Proof.
  pose proof (clear_filters_never_fails ∅
                {| server.path := "/api/clear-filters"; server.body := None |}
                eq_refl) as (Hresp & _ & Hsame & _).
  split; [exact Hresp | exact (Hsame eq_refl)].
Defined.

(** C9: whatever the request, neither [do_GET] nor [do_POST] changes a
    file other than the filter store; the catalog source holds the same
    contents afterwards and the loader reads the same records from it. *)
Theorem handlers_leave_catalog float int query_params
    (fs : gmap string text) (r : server.request) :
  (∀ name, name ≠ "current_filters.json" →
     (server.do_GET float int query_params fs r).1 !! name = fs !! name
     ∧ (server.do_POST fs r).1 !! name = fs !! name)
  ∧ filter_module.load_products (server.do_GET float int query_params fs r).1 "data.json"
    = filter_module.load_products fs "data.json"
  ∧ filter_module.load_products (server.do_POST fs r).1 "data.json"
    = filter_module.load_products fs "data.json".
Proof.
  assert (∀ name, name ≠ "current_filters.json" →
            (server.do_GET float int query_params fs r).1 !! name = fs !! name
            ∧ (server.do_POST fs r).1 !! name = fs !! name) as Hframe.
  { intros name Hname. split.
    - unfold server.do_GET. by repeat case_match.
    - unfold server.do_POST. repeat case_match; simpl; try done.
      + by rewrite lookup_insert_ne.
      + by rewrite lookup_delete_ne. }
  split; [exact Hframe|].
  unfold filter_module.load_products.
  destruct (Hframe "data.json" ltac:(done)) as [-> ->]. done.
Qed.

Lemma handlers_leave_catalog_witness :
  (server.do_POST (sample_fs ∅)
     {| server.path := "/api/set-filters";
        server.body := Some (JObj {[ "color" := JStr "red" ]}) |}).1 !! "data.json"
  = Some (Jsonl (Some <$> sample_products)).
Proof.
  destruct (handlers_leave_catalog decimal_float decimal_int no_query (sample_fs ∅)
              {| server.path := "/api/set-filters";
                 server.body := Some (JObj {[ "color" := JStr "red" ]}) |})
    as [Hframe _].
  destruct (Hframe "data.json" ltac:(discriminate)) as [_ ->].
  vm_compute. reflexivity.
Defined.

Lemma paginate_totals_witness :
  ∃ page_items metadata,
    pagination_module.paginate sample_products 3 2 = Ok (page_items, metadata)
    ∧ pagination_module.total_items metadata = 4
    ∧ pagination_module.total_pages metadata = 2
    ∧ page_items = [].
Proof.
  destruct (paginate_totals sample_products 3 2 ltac:(lia) ltac:(lia))
    as (page_items & metadata & Hpage & Hitems & Hpages & _ & Hempty).
  exists page_items, metadata.
  split; [exact Hpage|]. split; [exact Hitems|].
  assert (pagination_module.total_pages metadata = 2) as H2 by exact Hpages.
  split; [exact H2|]. apply Hempty. rewrite H2. lia.
Defined.

Lemma pages_reconstruct_witness :
  ∃ metadata,
    pagination_module.create_pagination_info sample_products 1 3 = Ok metadata
    ∧ pagination_module.concat_pages sample_products 3 1
        (Z.to_nat (pagination_module.total_pages metadata))
      = Ok sample_products.
Proof. apply (pages_reconstruct sample_products 3). lia. Defined.

(** * Further properties of the request handler *)

(** ** Setting, clearing and querying *)

Lemma set_filters_state (fs : gmap string text) (doc : json) :
  (server.do_POST fs (set_filters (Some doc))).1
  = <[ "current_filters.json" := Dumped doc ]> fs.
Proof. reflexivity. Qed.

Lemma clear_filters_state (fs : gmap string text) :
  (server.do_POST fs clear_filters).1 = delete "current_filters.json" fs.
Proof.
  unfold server.do_POST; simpl. case_bool_decide as Hstore; [done|].
  symmetry. apply delete_id. by apply eq_None_not_Some.
Qed.

Lemma load_products_store_irrelevant (fs fs' : gmap string text) :
  fs' !! "data.json" = fs !! "data.json" →
  filter_module.load_products fs' "data.json" = filter_module.load_products fs "data.json".
Proof. intros Heq. unfold filter_module.load_products. by rewrite Heq. Qed.

Lemma query_flow_store_irrelevant float (fs fs' : gmap string text)
    (filters : gmap string json) :
  fs' !! "data.json" = fs !! "data.json" →
  query_flow float fs' filters = query_flow float fs filters.
Proof.
  intros Heq. unfold query_flow.
  by rewrite (load_products_store_irrelevant _ _ Heq).
Qed.

(** X1: set-filters replaces the store wholesale.  After two posts the
    working directory is what the second post alone would have left, and
    reading the store back gives the second document; a body that is not
    valid JSON raises and leaves the working directory as it was. *)
Theorem set_filters_last_write_wins (fs : gmap string text) (first second : json) :
  let fs1 := (server.do_POST fs (set_filters (Some first))).1 in
  let fs2 := (server.do_POST fs1 (set_filters (Some second))).1 in
  fs2 = (server.do_POST fs (set_filters (Some second))).1
  ∧ (json_load <$> fs2 !! "current_filters.json") = Some (Ok second)
  ∧ server.do_POST fs1 (set_filters None) = (fs1, Raise JSONDecodeError).
Proof.
  intros fs1 fs2. subst fs1 fs2. rewrite !set_filters_state.
  split; [apply insert_insert_eq|]. split; [|reflexivity].
  by rewrite lookup_insert_eq.
Qed.

(** X2: clearing after setting is the same as clearing: whatever body was
    posted, valid or not, the working directory after set-filters followed
    by clear-filters is the one clear-filters alone leaves. *)
Theorem clear_undoes_set (fs : gmap string text) (body : option json) :
  (server.do_POST (server.do_POST fs (set_filters body)).1 clear_filters).1
  = (server.do_POST fs clear_filters).1.
Proof.
  rewrite !clear_filters_state. destruct body as [doc|]; [|reflexivity].
  rewrite set_filters_state. apply delete_insert_eq.
Qed.

(** X3: what is set is what the queries apply.  After a set-filters whose
    body is a JSON object, both query endpoints run the query flow of
    that object on the catalog as it was before the post. *)
Theorem set_then_query float (fs : gmap string text) (filters : gmap string json) :
  let fs' := (server.do_POST fs (set_filters (Some (JObj filters)))).1 in
  server.api_products_filtered float fs' = query_flow float fs filters
  ∧ server.get_data_json float fs'
    = (served ← query_flow float fs filters;
       Ok (server.Respond 200 (Some "application/json")
             (Some (Jsonl (Some <$> served))))).
Proof.
  intros fs'. subst fs'. rewrite set_filters_state.
  assert ((<[ "current_filters.json" := Dumped (JObj filters) ]> fs)
            !! "current_filters.json" = Some (Dumped (JObj filters))) as Hstore
    by apply lookup_insert_eq.
  assert ((<[ "current_filters.json" := Dumped (JObj filters) ]> fs) !! "data.json"
          = fs !! "data.json") as Hdata by by rewrite lookup_insert_ne.
  split.
  - rewrite (api_products_filtered_flow _ _ _ Hstore).
    by apply query_flow_store_irrelevant.
  - rewrite (get_data_json_flow _ _ _ Hstore).
    by rewrite (query_flow_store_irrelevant _ _ _ _ Hdata).
Qed.

(** X4: set-filters accepts any JSON document, but unless the document is
    an object no query returns afterwards: both query endpoints first load
    the catalog, raise the loader's error when that fails, and raise
    [AttributeError] when it succeeds. *)
Theorem set_non_object_breaks_queries float (fs : gmap string text) (doc : json) :
  (∀ members, doc ≠ JObj members) →
  let fs' := (server.do_POST fs (set_filters (Some doc))).1 in
  (server.do_POST fs (set_filters (Some doc))).2
  = Ok (server.Respond 200 (Some "application/json")
          (Some (Dumped (JObj {[ "status" := JStr "success" ]}))))
  ∧ server.get_data_json float fs'
    = (filter_module.load_products fs "data.json" ≫= fun _ => Raise AttributeError)
  ∧ server.api_products_filtered float fs'
    = (filter_module.load_products fs "data.json" ≫= fun _ => Raise AttributeError).
Proof.
  intros Hdoc fs'. subst fs'. rewrite set_filters_state.
  split; [reflexivity|].
  unfold server.get_data_json, server.data_json_filtered, server.api_products_filtered.
  rewrite lookup_insert_eq. simpl.
  rewrite (load_products_store_irrelevant fs
             (<[ "current_filters.json" := Dumped doc ]> fs))
    by by rewrite lookup_insert_ne.
  destruct (filter_module.load_products fs "data.json") as [all_products|e]; simpl; [|done].
  destruct doc as [| | | | |members]; try done.
  by destruct (Hdoc members).
Qed.

Lemma set_non_object_breaks_queries_witness :
  server.get_data_json decimal_float
    (server.do_POST (sample_fs ∅) (set_filters (Some (JArr [JStr "red"])))).1
  = Raise AttributeError
  ∧ server.get_data_json decimal_float
      (server.do_POST ∅ (set_filters (Some (JArr [JStr "red"])))).1
    = Raise NotFoundError.
Proof.
  split.
  - refine (proj1 (proj2 (set_non_object_breaks_queries decimal_float (sample_fs ∅)
                            (JArr [JStr "red"]) _))).
    intros members. discriminate.
  - refine (proj1 (proj2 (set_non_object_breaks_queries decimal_float ∅
                            (JArr [JStr "red"]) _))).
    intros members. discriminate.
Defined.

(** X5: after clear-filters the paginated endpoint paginates the whole
    catalog as the loader reads it, and the unpaginated endpoint serves
    the catalog source as it is, or raises [FileNotFoundError] when there
    is none. *)
Theorem clear_then_query float (fs : gmap string text) :
  let fs' := (server.do_POST fs clear_filters).1 in
  server.api_products_filtered float fs' = filter_module.load_products fs "data.json"
  ∧ server.get_data_json float fs'
    = match fs !! "data.json" with
      | Some content =>
          Ok (server.Respond 200 (Some "application/json") (Some content))
      | None => Raise FileNotFoundError
      end.
Proof.
  intros fs'. subst fs'. rewrite clear_filters_state.
  unfold server.api_products_filtered, server.get_data_json.
  rewrite lookup_delete_eq.
  assert (delete "current_filters.json" fs !! "data.json" = fs !! "data.json") as Hdata
    by by rewrite lookup_delete_ne.
  split.
  - by apply load_products_store_irrelevant.
  - rewrite Hdata. by destruct (fs !! "data.json").
Qed.

(** ** Without a filter store *)

Lemma parse_lines_malformed (lines : list (option product)) :
  None ∈ lines → filter_module.parse_lines lines = Raise ParseError.
Proof.
  induction lines as [|[p|] lines IH]; intros Hin.
  - by apply elem_of_nil in Hin.
  - apply elem_of_cons in Hin as [?|Hin]; [done|]. simpl. by rewrite IH.
  - reflexivity.
Qed.

Lemma endpoints_agree_without_store_witness :
  server.get_data_json decimal_float {[ "data.json" := Jsonl (Some <$> sample_products) ]}
  = Ok (server.Respond 200 (Some "application/json")
          (Some (Jsonl (Some <$> sample_products)))).
Proof.
  apply (endpoints_agree_without_store decimal_float
           {[ "data.json" := Jsonl (Some <$> sample_products) ]} sample_products);
    vm_compute; reflexivity.
Defined.

(** X7: with no filter store the unpaginated endpoint does not parse the
    catalog: a source with a line that is not valid JSON is served as it
    is, while the paginated endpoint fails on it with [ParseError]. *)
Theorem raw_catalog_served_unparsed float (fs : gmap string text)
    (lines : list (option product)) :
  fs !! "current_filters.json" = None →
  fs !! "data.json" = Some (Jsonl lines) →
  None ∈ lines →
  server.get_data_json float fs
  = Ok (server.Respond 200 (Some "application/json") (Some (Jsonl lines)))
  ∧ server.api_products_filtered float fs = Raise ParseError.
Proof.
  intros Hstore Hdata Hbad.
  unfold server.get_data_json, server.api_products_filtered,
    filter_module.load_products.
  rewrite Hstore, Hdata. split; [reflexivity|].
  by apply parse_lines_malformed.
Qed.

Lemma raw_catalog_served_unparsed_witness :
  server.get_data_json decimal_float {[ "data.json" := Jsonl [None] ]}
  = Ok (server.Respond 200 (Some "application/json") (Some (Jsonl [None])))
  ∧ server.api_products_filtered decimal_float {[ "data.json" := Jsonl [None] ]}
    = Raise ParseError.
Proof.
  apply (raw_catalog_served_unparsed decimal_float {[ "data.json" := Jsonl [None] ]}
           [None]).
  - vm_compute. reflexivity.
  - vm_compute. reflexivity.
  - constructor.
Defined.

(** ** Criteria as the handler reads them *)

(** X8: for [color], [brand] and [price_range] every falsy stored value
    ([false], [0], [[]], [{}] as well as the empty string and null) is
    treated as "not provided": [apply_filters] gets the arguments it gets
    with that key absent. *)
Theorem falsy_criterion_not_provided float (key : string) (v : json) :
  key ∈ ["color"; "brand"; "price_range"] →
  truthy v = false →
  not_provided float key v.
Proof.
  intros Hkey Hv filters. unfold handler_criteria, server.parse_price_range.
  rewrite !dict_get_insert, !dict_get_delete.
  rewrite !elem_of_cons, elem_of_nil in Hkey.
  destruct Hkey as [->|[->|[->|[]]]];
    repeat case_decide; simplify_eq; unfold server.or_None; rewrite ?Hv; reflexivity.
Qed.

Lemma falsy_criterion_not_provided_witness :
  not_provided decimal_float "brand" (JNum 0) ∧ not_provided decimal_float "color" (JArr []).
Proof.
  split.
  - apply (falsy_criterion_not_provided decimal_float "brand" (JNum 0));
      [do 1 constructor; constructor | reflexivity].
  - apply (falsy_criterion_not_provided decimal_float "color" (JArr []));
      [constructor | reflexivity].
Defined.

(** X9: the [on_sale] expression of the handler changes nothing: whenever
    the criteria are read, [apply_filters] gets the stored [on_sale] value
    itself, so a stored [false] stays a criterion and is not taken for
    "not provided". *)
Theorem on_sale_forwarded_verbatim float (filters : gmap string json) (c : criteria) :
  handler_criteria float filters = Ok c →
  c_on_sale c = dict_get filters "on_sale".
Proof.
  unfold handler_criteria.
  destruct (server.parse_price_range float filters) as [price_range|e]; simpl; [|done].
  intros [= <-]. simpl. by destruct (dict_get filters "on_sale").
Qed.

Lemma on_sale_forwarded_verbatim_witness :
  c_on_sale {| c_color := JNull; c_price_range := None;
               c_on_sale := JBool false; c_brand := JNull |}
  = dict_get {[ "on_sale" := JBool false ]} "on_sale".
Proof.
  apply (on_sale_forwarded_verbatim decimal_float {[ "on_sale" := JBool false ]}).
  vm_compute. reflexivity.
Defined.

(** X10: the criteria depend on the four criterion keys only: storing any
    value under another key, [sort_by] included, leaves the arguments of
    [apply_filters] as they are. *)
Theorem other_keys_do_not_filter float (filters : gmap string json)
    (key : string) (v : json) :
  key ∉ criterion_keys →
  handler_criteria float (<[key := v]> filters) = handler_criteria float filters.
Proof.
  intros Hkey. unfold criterion_keys in Hkey.
  rewrite !not_elem_of_cons in Hkey. destruct Hkey as (? & ? & ? & ? & _).
  unfold handler_criteria, server.parse_price_range.
  rewrite !dict_get_insert. by repeat case_decide.
Qed.

Lemma other_keys_do_not_filter_witness :
  handler_criteria decimal_float (<["sort_by" := JStr "popularity"]> {[ "color" := JStr "red" ]})
  = handler_criteria decimal_float {[ "color" := JStr "red" ]}.
Proof.
  apply (other_keys_do_not_filter decimal_float).
  unfold criterion_keys. rewrite !not_elem_of_cons.
  repeat split; try discriminate. apply not_elem_of_nil.
Defined.

(** ** Splitting the price range *)

Lemma split_dash_nonempty (s : string) : server.split_dash s ≠ [].
Proof.
  destruct s as [|c s]; simpl; [done|].
  destruct (Ascii.eqb c "-"); [done|]. by destruct (server.split_dash s).
Qed.

Lemma split_dash_prefix (lo rest : string) :
  has_dash lo = false →
  server.split_dash (String.append lo (String "-" rest)) = lo :: server.split_dash rest.
Proof.
  induction lo as [|c lo IH]; simpl; [done|].
  intros [Hc Hlo]%orb_false_elim. rewrite Hc. by rewrite (IH Hlo).
Qed.

Lemma split_dash_dash_free (s : string) :
  has_dash s = false → server.split_dash s = [s].
Proof.
  induction s as [|c s IH]; simpl; [done|].
  intros [Hc Hs]%orb_false_elim. rewrite Hc. by rewrite (IH Hs).
Qed.

Lemma truthy_JStr_String (c : ascii) (s : string) : truthy (JStr (String c s)) = true.
Proof. reflexivity. Qed.

(** X11: [split_dash] behaves as [str.split("-")]: joining the parts with
    dashes gives the string back, no part holds a dash, and there is
    always a first part, so [price_parts[0]] cannot raise. *)
Theorem split_dash_join (s : string) :
  join_dash (server.split_dash s) = s
  ∧ Forall (fun part => has_dash part = false) (server.split_dash s)
  ∧ is_Some (server.split_dash s !! 0%nat).
Proof.
  split; [|split].
  - induction s as [|c s IH]; simpl; [done|].
    destruct (Ascii.eqb_spec c "-") as [->|Hc].
    + pose proof (split_dash_nonempty s) as Hne.
      simpl. destruct (server.split_dash s) as [|w ws]; [done|].
      simpl in *. by rewrite IH.
    + pose proof (split_dash_nonempty s) as Hne.
      destruct (server.split_dash s) as [|w ws]; [done|].
      destruct ws as [|w' ws]; simpl in *; by rewrite <- IH.
  - induction s as [|c s IH]; simpl; [by repeat constructor|].
    destruct (Ascii.eqb c "-") eqn:Hc; [by constructor|].
    destruct (server.split_dash s) as [|w ws]; simpl.
    + repeat constructor. simpl. by rewrite Hc.
    + inversion IH as [|? ? Hw Hws]; subst. constructor; [|done].
      simpl. by rewrite Hc, Hw.
  - pose proof (split_dash_nonempty s).
    by destruct (server.split_dash s).
Qed.

(** X12: a stored price range ["lo-hi"], with or without further
    dash-separated parts after it, is read as the pair of [float(lo)] and
    [float(hi)]; the further parts are ignored. *)
Theorem price_range_parsed float (filters : gmap string json)
    (lo hi : string) (more : list string) (a b : Q) :
  has_dash lo = false → has_dash hi = false →
  Forall (fun part => has_dash part = false) more →
  dict_get filters "price_range" = JStr (join_dash (lo :: hi :: more)) →
  float lo = Ok a → float hi = Ok b →
  server.parse_price_range float filters = Ok (Some (a, b)).
Proof.
  intros Hlo Hhi Hmore Hget Ha Hb. unfold server.parse_price_range.
  assert (∃ rest, server.split_dash (join_dash (hi :: more)) = hi :: rest) as [rest Hrest].
  { destruct more as [|w more]; simpl.
    - exists []. by apply split_dash_dash_free.
    - eexists. by apply split_dash_prefix. }
  rewrite Hget. change (join_dash (lo :: hi :: more))
    with (String.append lo (String "-" (join_dash (hi :: more)))).
  assert (truthy (JStr (String.append lo (String "-" (join_dash (hi :: more))))) = true)
    as -> by (destruct lo; reflexivity).
  rewrite (split_dash_prefix _ _ Hlo), Hrest. simpl.
  by rewrite Ha, Hb.
Qed.

Lemma price_range_parsed_witness :
  server.parse_price_range decimal_float {[ "price_range" := JStr "100-500-700" ]}
  = Ok (Some (100, 500)%Q).
Proof.
  apply (price_range_parsed decimal_float {[ "price_range" := JStr "100-500-700" ]}
           "100" "500" ["700"] 100 500);
    try (vm_compute; reflexivity).
  repeat constructor.
Defined.

(** X13: a stored price range without a dash never yields a range: when
    [float] accepts the string the handler raises [IndexError], and when
    it does not, the error of [float]. *)
Theorem price_range_without_dash float (filters : gmap string json) (s : string) :
  s ≠ EmptyString → has_dash s = false →
  dict_get filters "price_range" = JStr s →
  server.parse_price_range float filters = (float s ≫= fun _ => Raise IndexError).
Proof.
  intros Hs Hdash Hget. unfold server.parse_price_range. rewrite Hget.
  destruct s as [|c s]; [done|]. rewrite truthy_JStr_String.
  rewrite (split_dash_dash_free _ Hdash). simpl.
  by destruct (float (String c s)).
Qed.

Lemma price_range_without_dash_witness :
  server.parse_price_range decimal_float {[ "price_range" := JStr "100" ]}
  = Raise IndexError.
Proof.
  apply (price_range_without_dash decimal_float {[ "price_range" := JStr "100" ]} "100");
    [discriminate | reflexivity | vm_compute; reflexivity].
Defined.

(** X14: a stored price range that is truthy but not a string (a number,
    [true], a non-empty list or object) raises [AttributeError]. *)
Theorem price_range_not_a_string float (filters : gmap string json) :
  truthy (dict_get filters "price_range") = true →
  (∀ s, dict_get filters "price_range" ≠ JStr s) →
  server.parse_price_range float filters = Raise AttributeError.
Proof.
  intros Htruthy Hstr. unfold server.parse_price_range. rewrite Htruthy.
  destruct (dict_get filters "price_range") as [| | |s| |]; try done.
  by destruct (Hstr s).
Qed.

Lemma price_range_not_a_string_witness :
  server.parse_price_range decimal_float {[ "price_range" := JNum 100 ]}
  = Raise AttributeError.
Proof.
  apply (price_range_not_a_string decimal_float {[ "price_range" := JNum 100 ]}).
  - vm_compute. reflexivity.
  - intros s. vm_compute. discriminate.
Defined.

(** ** Runs of requests *)

Lemma do_GET_state float int query_params (fs : gmap string text) (r : server.request) :
  (server.do_GET float int query_params fs r).1 = fs.
Proof. unfold server.do_GET. by repeat case_match. Qed.

Lemma do_POST_state (fs : gmap string text) (r : server.request) :
  (server.do_POST fs r).1 = fs
  ∨ (∃ doc, (server.do_POST fs r).1 = <[ "current_filters.json" := Dumped doc ]> fs)
  ∨ (server.do_POST fs r).1 = delete "current_filters.json" fs.
Proof.
  unfold server.do_POST. repeat case_match; simpl; eauto.
Qed.

Lemma handle_request_state float int query_params
    (fs : gmap string text) (m : method) (r : server.request) :
  (handle_request float int query_params fs m r).1 = fs
  ∨ (∃ doc, (handle_request float int query_params fs m r).1
            = <[ "current_filters.json" := Dumped doc ]> fs)
  ∨ (handle_request float int query_params fs m r).1 = delete "current_filters.json" fs.
Proof.
  destruct m; simpl; [left; apply do_GET_state | apply do_POST_state].
Qed.

(** X15: over any run of GET and POST requests, every file other than the
    filter store, the catalog source among them, keeps its contents, and
    the loader reads the same catalog at the end as at the start. *)
Theorem serve_keeps_other_files float int query_params
    (requests : list (method * server.request)) (fs : gmap string text) :
  (∀ name, name ≠ "current_filters.json" →
     serve float int query_params fs requests !! name = fs !! name)
  ∧ filter_module.load_products (serve float int query_params fs requests) "data.json"
    = filter_module.load_products fs "data.json".
Proof.
  assert (∀ name, name ≠ "current_filters.json" →
            serve float int query_params fs requests !! name = fs !! name) as Hframe.
  { intros name Hname. revert fs.
    induction requests as [|[m r] requests IH]; intros fs; [done|].
    unfold serve in *. simpl. rewrite IH.
    destruct (handle_request_state float int query_params fs m r)
      as [->|[[doc ->]| ->]]; [done|..].
    - by rewrite lookup_insert_ne.
    - by rewrite lookup_delete_ne. }
  split; [exact Hframe|].
  apply load_products_store_irrelevant. by apply Hframe.
Qed.

Lemma serve_keeps_other_files_witness :
  serve decimal_float decimal_int no_query (sample_fs ∅)
    [(POST, set_filters (Some (JStr "red"))); (POST, clear_filters)] !! "data.json"
  = sample_fs ∅ !! "data.json".
Proof.
  apply (proj1 (serve_keeps_other_files decimal_float decimal_int no_query
                  [(POST, set_filters (Some (JStr "red"))); (POST, clear_filters)]
                  (sample_fs ∅)) "data.json").
  discriminate.
Defined.

(** X16: the handler keeps the filter store readable: if the store is
    absent or holds one JSON document at the start, then after any run of
    requests it is absent or [json.load] reads it without error. *)
Theorem serve_keeps_store_well_formed float int query_params
    (requests : list (method * server.request)) (fs : gmap string text) :
  store_well_formed fs →
  store_well_formed (serve float int query_params fs requests)
  ∧ ∀ stored,
      serve float int query_params fs requests !! "current_filters.json" = Some stored →
      ∃ doc, json_load stored = Ok doc.
Proof.
  intros Hwf.
  assert (store_well_formed (serve float int query_params fs requests)) as Hend.
  { revert fs Hwf. induction requests as [|[m r] requests IH]; intros fs Hwf; [done|].
    unfold serve in *. simpl. apply IH.
    destruct (handle_request_state float int query_params fs m r)
      as [->|[[doc ->]| ->]]; [done|..]; unfold store_well_formed.
    - rewrite lookup_insert_eq. eauto.
    - by rewrite lookup_delete_eq. }
  split; [exact Hend|].
  intros stored Hstored. unfold store_well_formed in Hend.
  rewrite Hstored in Hend. destruct Hend as [doc ->]. by exists doc.
Qed.

Lemma serve_keeps_store_well_formed_witness :
  store_well_formed
    (serve decimal_float decimal_int no_query (sample_fs ∅)
       [(POST, set_filters (Some (JStr "red"))); (GET, clear_filters);
        (POST, set_filters None)]).
Proof.
  refine (proj1 (serve_keeps_store_well_formed decimal_float decimal_int no_query
                   [(POST, set_filters (Some (JStr "red"))); (GET, clear_filters);
                    (POST, set_filters None)] (sample_fs ∅) _)).
  unfold store_well_formed. vm_compute. eexists. reflexivity.
Defined.

(** ** What the queries serve *)

Lemma elem_of_List_filter {A} (f : A -> bool) (l : list A) (x : A) :
  x ∈ List.filter f l ↔ x ∈ l ∧ f x = true.
Proof. rewrite !list_elem_of_In. apply filter_In. Qed.

Lemma sort_stage_Permutation (sort_by : json) (records : list product) :
  sort_stage sort_by records ≡ₚ records.
Proof.
  unfold sort_stage, filter_module.sort_by_price_high_to_low,
    filter_module.sort_by_price_low_to_high, filter_module.sort_by_popularity.
  repeat case_match; try done; apply sorted_Permutation.
Qed.

(** X17: a query never serves a record that is not in the catalog: when
    the query flow returns, the catalog has loaded, every record served is
    one of its records, and no more records are served than it holds. *)
Theorem query_serves_catalog_records float (fs : gmap string text)
    (filters : gmap string json) (served : list product) :
  query_flow float fs filters = Ok served →
  ∃ all_products,
    filter_module.load_products fs "data.json" = Ok all_products
    ∧ (∀ p, p ∈ served → p ∈ all_products)
    ∧ (length served ≤ length all_products)%nat.
Proof.
  unfold query_flow.
  destruct (filter_module.load_products fs "data.json") as [all_products|e]; simpl; [|done].
  destruct (handler_criteria float filters) as [c|e]; simpl; [|done].
  intros [= <-]. exists all_products. split; [done|].
  pose proof (sort_stage_Permutation (dict_get filters "sort_by")
                (filter_stage all_products c)) as Hperm.
  pose proof (apply_filters_sublist all_products
                (c_color c) (c_price_range c) (c_on_sale c) (c_brand c)) as Hsub.
  fold (filter_stage all_products c) in Hsub. split.
  - intros p Hp. rewrite Hperm in Hp. by eapply elem_of_sublist.
  - rewrite Hperm. by apply sublist_length.
Qed.

Lemma query_serves_catalog_records_witness :
  ∃ all_products,
    filter_module.load_products (sample_fs {[ "color" := JStr "black" ]}) "data.json"
    = Ok all_products
    ∧ (∀ p, p ∈ filter_module.filter_by_color sample_products (JStr "black") →
            p ∈ all_products)
    ∧ (length (filter_module.filter_by_color sample_products (JStr "black"))
       ≤ length all_products)%nat.
Proof.
  apply (query_serves_catalog_records decimal_float
           (sample_fs {[ "color" := JStr "black" ]}) {[ "color" := JStr "black" ]}).
  vm_compute. reflexivity.
Defined.

(** ** What the test suite asserts, for every catalog *)

(** X18: the three sorts return the records they were given, reordered:
    the same records as often, hence as many ([test_sort_*] assert the
    length on the records of the data file). *)
Theorem sorts_keep_records (products : list product) :
  (filter_module.sort_by_price_high_to_low products ≡ₚ products
   ∧ filter_module.sort_by_price_low_to_high products ≡ₚ products
   ∧ filter_module.sort_by_popularity products ≡ₚ products)
  ∧ length (filter_module.sort_by_price_high_to_low products) = length products
  ∧ length (filter_module.sort_by_price_low_to_high products) = length products
  ∧ length (filter_module.sort_by_popularity products) = length products.
Proof.
  assert (∀ before : product -> product -> bool,
            length (filter_module.sorted before products) = length products) as Hlen.
  { intros before. by rewrite sorted_Permutation. }
  repeat split; try apply sorted_Permutation; apply Hlen.
Qed.

(** X19: every record that [filter_by_color], [filter_by_brand] or
    [filter_by_sale_status] returns is a record of the input with exactly
    the color, the designer or the sale status asked for. *)
Theorem filters_return_matches (products : list product) (p : product) :
  (∀ c : string, p ∈ filter_module.filter_by_color products (JStr c) →
                 p ∈ products ∧ color p = c)
  ∧ (∀ b : string, p ∈ filter_module.filter_by_brand products (JStr b) →
                   p ∈ products ∧ designer p = b)
  ∧ (∀ s : bool, p ∈ filter_module.filter_by_sale_status products (JBool s) →
                 p ∈ products ∧ on_sale p = s).
Proof.
  unfold filter_module.filter_by_color, filter_module.filter_by_brand,
    filter_module.filter_by_sale_status.
  split; [|split]; intros x [Hin Hx]%elem_of_List_filter; (split; [done|]); simpl in Hx.
  - symmetry. by apply String.eqb_eq.
  - symmetry. by apply String.eqb_eq.
  - symmetry. by apply Bool.eqb_prop.
Qed.

Lemma filters_return_matches_witness :
  black_gucci ∈ sample_products ∧ color black_gucci = "black".
Proof.
  apply (proj1 (filters_return_matches sample_products black_gucci) "black").
  vm_compute. do 1 constructor.
Defined.

(** X20: every record that [filter_by_price_range] returns is a record of
    the input whose effective price, the discount price when it is on
    sale and the regular price otherwise, lies within the bounds. *)
Theorem price_range_returns_matches (products : list product)
    (min_price max_price : Q) (p : product) :
  p ∈ filter_module.filter_by_price_range products min_price max_price →
  p ∈ products
  ∧ (min_price <= (if on_sale p then discount_price p else regular_price p))%Q
  ∧ ((if on_sale p then discount_price p else regular_price p) <= max_price)%Q.
Proof.
  unfold filter_module.filter_by_price_range.
  intros [Hin [Hlo Hhi]%andb_prop]%elem_of_List_filter.
  split; [done|]. by rewrite <- !Qle_bool_iff.
Qed.

Lemma price_range_returns_matches_witness :
  red_gucci ∈ sample_products
  ∧ (240 <= discount_price red_gucci)%Q ∧ (discount_price red_gucci <= 260)%Q.
Proof.
  apply (price_range_returns_matches sample_products 240 260 red_gucci).
  vm_compute. constructor.
Defined.

(** X21: every record that [apply_filters] returns for a color, a price
    range, a sale status and a brand meets all four at once; for records
    on sale the price in range is the discount price
    ([test_apply_filters_multiple_criteria]). *)
Theorem apply_filters_returns_matches (products : list product)
    (c b : string) (s : bool) (min_price max_price : Q) (p : product) :
  c ≠ EmptyString → b ≠ EmptyString →
  p ∈ filter_module.apply_filters products
        (JStr c) (Some (min_price, max_price)) (JBool s) (JStr b) →
  p ∈ products
  ∧ color p = c ∧ designer p = b ∧ on_sale p = s
  ∧ (min_price <= filter_module.effective_price p)%Q
  ∧ (filter_module.effective_price p <= max_price)%Q
  ∧ (s = true → (min_price <= discount_price p <= max_price)%Q).
Proof.
  intros Hc Hb. unfold filter_module.apply_filters; simpl.
  destruct (String.eqb_spec c "") as [?|_]; [done|].
  destruct (String.eqb_spec b "") as [?|_]; [done|]. simpl.
  unfold filter_module.filter_by_brand, filter_module.filter_by_sale_status,
    filter_module.filter_by_price_range, filter_module.filter_by_color.
  rewrite !elem_of_List_filter. simpl.
  intros [[[[Hin Hcolor] [Hlo Hhi]%andb_prop] Hsale] Hbrand].
  apply String.eqb_eq in Hcolor, Hbrand. apply Bool.eqb_prop in Hsale.
  apply Qle_bool_iff in Hlo, Hhi.
  do 6 (split; [done|]).
  intros ->. unfold filter_module.effective_price in Hlo, Hhi.
  rewrite <- Hsale in Hlo, Hhi. by split.
Qed.

Lemma apply_filters_returns_matches_witness :
  black_gucci ∈ sample_products
  ∧ color black_gucci = "black" ∧ designer black_gucci = "gucci"
  ∧ on_sale black_gucci = true.
Proof.
  assert (black_gucci ∈ filter_module.apply_filters sample_products
            (JStr "black") (Some (100, 500)%Q) (JBool true) (JStr "gucci")) as Hp
    by (vm_compute; constructor).
  destruct (apply_filters_returns_matches sample_products "black" "gucci" true
              100 500 black_gucci ltac:(discriminate) ltac:(discriminate) Hp)
    as (Hin & Hcolor & Hbrand & Hsale & _).
  by repeat split.
Defined.
